(** * SmartCL.h: the kernel portability header, and the preprocessor that reads it

    The repository fragment is one header, [examples/CLKernels/SmartCL.h].
    It holds no C or C++ declarations: every line is blank or a preprocessing
    directive.  What the header "does" is therefore what a C preprocessor
    does when it reads the file, and this development embeds exactly that:

    - the header's text, byte for byte ([SmartCL_h_text]);
    - the splitting of the text into lines, the lexing of a line into
      preprocessing tokens and a trailing [//] comment, and the recognition
      of directives ([split_lines], [lex_line], [parse_line]);
    - the execution of directives on a preprocessing state: the macro table,
      the set of files marked [#pragma once], and the ordered log of what
      reaches the translation unit ([step], [run_lines], [run_file]).

    The two headers the file includes, [<windows.h>] and [<stdio.h>], belong
    to the toolchain and not to the repository.  The toolchain is a parameter
    of the development: what reading [<name>] does to the preprocessing
    state, which is an error where the toolchain has no such header.  A
    toolchain that supplies every header, and whose headers are of interest
    only for the macros they define, is given by a transformer of the macro
    table ([supplied]); the statements about what the header defines,
    includes and passes on are made for these.

    The preprocessor is modelled as far as the header and the statements
    about it need:
    - macros are object-like; a [#define] of a name that is already defined
      puts the new replacement list in force (compilers warn and go on);
    - [#pragma once] marks the file being read and is not passed on; every
      other pragma is passed to the compiler, token for token;
    - comments are [//] comments, punctuators are single characters, and a
      line is never continued on the next: the header has no block comment,
      no digraph and no spliced line.  Lines of other files that use these
      are outside what the lexer reads correctly;
    - a directive outside this fragment makes the run fail. *)

From Stdlib Require Import Ascii String List Bool Arith Lia.
From stdpp Require Import base option list strings gmap.
Import ListNotations.

Local Open Scope string_scope.
Local Open Scope list_scope.

(** ** The source text *)

Module Source.

(** The double-quote character, written by its code so that the text below
    can be read against the file line by line. *)
Definition dquote : string := String (ascii_of_nat 34) EmptyString.

(** The fifteen lines of [SmartCL.h], verbatim. *)
Definition SmartCL_h_lines : list string :=
  [ "#pragma once"
  ; ""
  ; "#ifdef _WINDOWS"
  ; ""
  ; "#define WIN32_LEAN_AND_MEAN"
  ; "#include <windows.h>"
  ; "#include <stdio.h>"
  ; ""
  ; "#define kernel extern " +:+ dquote +:+ "C" +:+ dquote +:+ " __declspec(dllexport)"
  ; "#define global"
  ; "#define local"
  ; ""
  ; "#pragma warning (disable : 4326) // For void main"
  ; ""
  ; "#endif // _WINDOWS" ].

(** The line terminator of the file (LF). *)
Definition newline : string := String (ascii_of_nat 10) EmptyString.

(** The file as stored: the lines joined by LF, with no LF after the last
    one (the file is 247 bytes long and holds 14 line feeds). *)
Definition SmartCL_h_text : string :=
  Eval cbv in String.concat newline SmartCL_h_lines.

(** The name under which dependents include the file. *)
Definition SmartCL_h_name : string := "SmartCL.h".

End Source.

(** ** Lines and tokens *)

Module Lexer.

(** Splitting a text at every LF.  A text with [n] line feeds has [n + 1]
    lines; the last one is whatever follows the last LF. *)
Fixpoint split_lines_aux (cur : list ascii) (cs : list ascii) : list string :=
  match cs with
  | [] => [string_of_list_ascii (rev cur)]
  | c :: cs' =>
      if Ascii.eqb c (ascii_of_nat 10)
      then string_of_list_ascii (rev cur) :: split_lines_aux [] cs'
      else split_lines_aux (c :: cur) cs'
  end.

Definition split_lines (text : string) : list string :=
  split_lines_aux [] (list_ascii_of_string text).

(** Preprocessing tokens.  Punctuators are kept one character at a time,
    which is all the header uses. *)
Inductive pp_token : Type :=
  | TIdent (name : string)
  | TNumber (digits : string)
  | TString (contents : string)
  | TChar (contents : string)
  | TPunct (c : ascii).

Definition is_space (c : ascii) : bool :=
  let n := nat_of_ascii c in
  Nat.eqb n 32 || Nat.eqb n 9 || Nat.eqb n 11 || Nat.eqb n 12 || Nat.eqb n 13.

Definition is_digit (c : ascii) : bool :=
  let n := nat_of_ascii c in Nat.leb 48 n && Nat.leb n 57.

Definition is_ident_start (c : ascii) : bool :=
  let n := nat_of_ascii c in
  (Nat.leb 65 n && Nat.leb n 90) || (Nat.leb 97 n && Nat.leb n 122) || Nat.eqb n 95.

Definition is_word_char (c : ascii) : bool := is_ident_start c || is_digit c.

(** A double or a single quote opens a literal. *)
Definition is_quote (c : ascii) : bool :=
  Ascii.eqb c (ascii_of_nat 34) || Ascii.eqb c (ascii_of_nat 39).

(** The text of a [//] comment that starts right here, if one does. *)
Definition comment_at (cs : list ascii) : option string :=
  match cs with
  | c1 :: c2 :: rest =>
      if Ascii.eqb c1 (ascii_of_nat 47) && Ascii.eqb c2 (ascii_of_nat 47)
      then Some (string_of_list_ascii rest) else None
  | _ => None
  end.

(** What the lexer is in the middle of; [white] remembers whether white
    space came before the token being read. *)
Inductive lex_mode : Type :=
  | LIdle (white : bool)
  | LWord (white : bool) (acc : list ascii)
  | LQuote (white : bool) (q : ascii) (acc : list ascii) (escaped : bool).

Definition word_token (acc : list ascii) : pp_token :=
  let s := string_of_list_ascii (rev acc) in
  match rev acc with
  | c :: _ => if is_digit c then TNumber s else TIdent s
  | [] => TIdent s
  end.

Definition quote_token (q : ascii) (acc : list ascii) : pp_token :=
  let s := string_of_list_ascii (rev acc) in
  if Ascii.eqb q (ascii_of_nat 34) then TString s else TChar s.

(** A lexed line: its tokens, each with the flag "white space came before
    it", and the text of its [//] comment when it has one. *)
Record lexed : Type := Lexed {
  lx_tokens : list (bool * pp_token);
  lx_comment : option string
}.

Definition push (t : bool * pp_token) (l : lexed) : lexed :=
  Lexed (t :: lx_tokens l) (lx_comment l).

Definition lexed_app (ts : list (bool * pp_token)) (l : lexed) : lexed :=
  Lexed (ts ++ lx_tokens l) (lx_comment l).

(** The token still being read when the line ends. *)
Definition pending (m : lex_mode) : list (bool * pp_token) :=
  match m with
  | LIdle _ => []
  | LWord w acc => [(w, word_token acc)]
  | LQuote w q acc _ => [(w, quote_token q acc)]
  end.

Fixpoint lex (m : lex_mode) (cs : list ascii) : lexed :=
  match cs with
  | [] => Lexed (pending m) None
  | c :: cs' =>
      let idle (w : bool) : lexed :=
        if is_space c then lex (LIdle true) cs'
        else if is_word_char c then lex (LWord w [c]) cs'
        else if is_quote c then lex (LQuote w c [] false) cs'
        else match comment_at cs with
             | Some text => Lexed [] (Some text)
             | None => push (w, TPunct c) (lex (LIdle false) cs')
             end in
      match m with
      | LIdle w => idle w
      | LWord w acc =>
          if is_word_char c then lex (LWord w (c :: acc)) cs'
          else lexed_app (pending m) (idle false)
      | LQuote w q acc esc =>
          if esc then lex (LQuote w q (c :: acc) false) cs'
          else if Ascii.eqb c (ascii_of_nat 92) then lex (LQuote w q (c :: acc) true) cs'
          else if Ascii.eqb c q then lexed_app (pending m) (lex (LIdle false) cs')
          else lex (LQuote w q (c :: acc) false) cs'
      end
  end.

Definition lex_line (line : string) : lexed :=
  lex (LIdle false) (list_ascii_of_string line).

End Lexer.

(** ** Directives *)

Module Directive.
Import Source Lexer.

(** [#include <name>] names a header of the toolchain, [#include "name"] a
    file of the project. *)
Inductive header_name : Type :=
  | SysHeader (name : string)
  | UserHeader (name : string).

(** The lines a preprocessor tells apart.  The fragment modelled is the one
    the header is written in, with its closest relatives: object-like
    [#define], [#undef], [#ifdef] / [#ifndef] / [#else] / [#endif],
    [#include] and [#pragma].  Any other directive ([#if], [#elif],
    [#error], [#line], a function-like [#define]) is [DUnsupported]: the
    model refuses it instead of guessing. *)
Inductive directive : Type :=
  | DBlank
  | DText (toks : list pp_token)
  | DPragma (toks : list pp_token)
  | DIfdef (name : string)
  | DIfndef (name : string)
  | DElse
  | DEndif
  | DDefine (name : string) (body : list pp_token)
  | DUndef (name : string)
  | DInclude (h : header_name)
  | DUnsupported (name : string)
  | DMalformed.

(** How a token is written. *)
Definition spelling (t : pp_token) : string :=
  match t with
  | TIdent s => s
  | TNumber s => s
  | TString s => dquote +:+ s +:+ dquote
  | TChar s => "'" +:+ s +:+ "'"
  | TPunct c => String c EmptyString
  end.

Definition is_punct (c : ascii) (t : pp_token) : bool :=
  match t with
  | TPunct c' => Ascii.eqb c c'
  | _ => false
  end.

(** The header name after [#include]: a string literal, or the spelling of
    the tokens between [<] and [>]. *)
Definition parse_include (args : list pp_token) : directive :=
  match args with
  | [TString s] => DInclude (UserHeader s)
  | t :: rest =>
      if is_punct "<" t then
        match rev rest with
        | t' :: rmid =>
            if is_punct ">" t'
            then DInclude (SysHeader (String.concat "" (map spelling (rev rmid))))
            else DMalformed
        | [] => DMalformed
        end
      else DUnsupported "include"
  | [] => DMalformed
  end.

(** [#define name body].  A left parenthesis glued to the name opens a
    parameter list: a function-like macro, outside the fragment. *)
Definition parse_define (args : list (bool * pp_token)) : directive :=
  match args with
  | (_, TIdent x) :: body =>
      match body with
      | (false, t) :: _ =>
          if is_punct "(" t then DUnsupported "define" else DDefine x (map snd body)
      | _ => DDefine x (map snd body)
      end
  | _ => DMalformed
  end.

Definition parse_name (args : list (bool * pp_token)) (k : string -> directive) : directive :=
  match args with
  | [(_, TIdent x)] => k x
  | _ => DMalformed
  end.

Definition parse_bare (args : list (bool * pp_token)) (d : directive) : directive :=
  match args with
  | [] => d
  | _ => DMalformed
  end.

Definition parse_directive (d : string) (args : list (bool * pp_token)) : directive :=
  if String.eqb d "pragma" then DPragma (map snd args)
  else if String.eqb d "ifdef" then parse_name args DIfdef
  else if String.eqb d "ifndef" then parse_name args DIfndef
  else if String.eqb d "else" then parse_bare args DElse
  else if String.eqb d "endif" then parse_bare args DEndif
  else if String.eqb d "define" then parse_define args
  else if String.eqb d "undef" then parse_name args DUndef
  else if String.eqb d "include" then parse_include (map snd args)
  else DUnsupported d.

(** A line whose first token is [#] is a directive; a line with no token is
    blank; any other line is program text. *)
Definition parse_tokens (ts : list (bool * pp_token)) : directive :=
  match ts with
  | [] => DBlank
  | (_, t) :: rest =>
      if is_punct "#" t then
        match rest with
        | [] => DBlank
        | (_, TIdent d) :: args => parse_directive d args
        | _ => DMalformed
        end
      else DText (map snd ts)
  end.

(** A parsed line keeps the comment the lexer set aside. *)
Record line : Type := Line {
  ln_directive : directive;
  ln_comment : option string
}.

Definition parse_line (l : string) : line :=
  let lx := lex_line l in
  Line (parse_tokens (lx_tokens lx)) (lx_comment lx).

Definition parse_text (text : string) : list line :=
  map parse_line (split_lines text).

(** The three kinds of line, for counting. *)
Inductive line_kind : Type := KBlank | KDirective | KText.

Definition kind_of (d : directive) : line_kind :=
  match d with
  | DBlank => KBlank
  | DText _ => KText
  | _ => KDirective
  end.

End Directive.

(** ** Preprocessing *)

Module Preprocessor.
Import Source Lexer Directive.

(** What reaches the translation unit, in order.  A system header is
    recorded by name: its contents are the toolchain's. *)
Inductive event : Type :=
  | EvDefine (name : string) (body : list pp_token)
  | EvUndef (name : string)
  | EvInclude (name : string)
  | EvPragma (toks : list pp_token)
  | EvText (toks : list pp_token).

(** The macro table: the replacement list of every object-like macro in
    force. *)
Abbreviation macro_table := (gmap string (list pp_token)).

(** The preprocessing state: the macro table, the files marked
    [#pragma once], and the log. *)
Record pp_state : Type := PPState {
  macros : macro_table;
  once : gset string;
  log : list event
}.

Inductive pp_error : Type :=
  | ErrElseWithoutIf
  | ErrElseAfterElse
  | ErrEndifWithoutIf
  | ErrUnterminatedIf
  | ErrMalformed
  | ErrUnsupported (d : string)
  | ErrFileNotFound (name : string).

Inductive result (A : Type) : Type :=
  | Ok (a : A)
  | Err (e : pp_error).
Arguments Ok {A} a.
Arguments Err {A} e.

Definition bind {A B : Type} (r : result A) (k : A -> result B) : result B :=
  match r with
  | Ok a => k a
  | Err e => Err e
  end.

Notation "'do' x <- r ; k" := (bind r (fun x => k))
  (at level 10, x name, r at level 100, k at level 200).

(** [#ifdef x] asks exactly this. *)
Definition defined (m : macro_table) (x : string) : bool :=
  match m !! x with
  | Some _ => true
  | None => false
  end.

(** Macro replacement of program text.  An identifier that names a macro is
    replaced by the macro's body, and the body is scanned again with that
    macro out of the table, so no macro is replaced inside its own
    expansion.  Every nested replacement removes a macro, so [size m] nested
    replacements are the most there can be: the fuel [S (size m)] given by
    [expand] never runs out ([expand_fuel_enough]). *)
Fixpoint expand_fuel (n : nat) (m : macro_table) (ts : list pp_token) : list pp_token :=
  match n with
  | O => ts
  | S n' =>
      flat_map (fun t =>
        match t with
        | TIdent x =>
            match m !! x with
            | Some body => expand_fuel n' (delete x m) body
            | None => [t]
            end
        | _ => [t]
        end) ts
  end.

Definition expand (m : macro_table) (ts : list pp_token) : list pp_token :=
  expand_fuel (S (size m)) m ts.

(** Conditional groups: one frame per open [#ifdef] / [#ifndef], holding
    whether the group being read is taken and whether [#else] was seen.
    A line is live when every enclosing group is taken. *)
Definition frame : Type := bool * bool.

Definition live (cs : list frame) : bool := forallb fst cs.

Definition emit (e : event) (st : pp_state) : pp_state :=
  PPState (macros st) (once st) (log st ++ [e]).

(** [#pragma once] is the preprocessor's own: it marks the file and is not
    passed on.  Every other pragma goes to the compiler as it is written. *)
Definition is_pragma_once (toks : list pp_token) : bool :=
  match toks with
  | [TIdent x] => String.eqb x "once"
  | _ => false
  end.

Section Run.

(** The toolchain's headers: what reading [<name>] does to the state, or the
    error that stops the run where the header cannot be read. *)
Variable sys_header : string -> pp_state -> result pp_state.

(** The project's headers: what [#include "name"] does to the state. *)
Variable user_header : string -> pp_state -> result pp_state.

(** A live line of [file] that is not a conditional. *)
Definition exec (file : string) (d : directive) (st : pp_state) : result pp_state :=
  match d with
  | DBlank => Ok st
  | DText toks => Ok (emit (EvText (expand (macros st) toks)) st)
  | DPragma toks =>
      if is_pragma_once toks
      then Ok (PPState (macros st) ({[file]} ∪ once st) (log st))
      else Ok (emit (EvPragma toks) st)
  | DDefine x body =>
      Ok (emit (EvDefine x body) (PPState (<[x := body]> (macros st)) (once st) (log st)))
  | DUndef x =>
      Ok (emit (EvUndef x) (PPState (delete x (macros st)) (once st) (log st)))
  | DInclude (SysHeader h) => sys_header h (emit (EvInclude h) st)
  | DInclude (UserHeader h) => user_header h st
  | DUnsupported d => Err (ErrUnsupported d)
  | DMalformed => Err ErrMalformed
  | DIfdef _ | DIfndef _ | DElse | DEndif => Ok st
  end.

(** One line.  Conditionals are followed in dead groups too, to keep the
    nesting, and a directive outside the fragment stops the run wherever it
    stands; everything else is executed only when live. *)
Definition step (file : string) (d : directive) (cs : list frame) (st : pp_state)
    : result (list frame * pp_state) :=
  match d with
  | DIfdef x => Ok ((defined (macros st) x, false) :: cs, st)
  | DIfndef x => Ok ((negb (defined (macros st) x), false) :: cs, st)
  | DElse =>
      match cs with
      | (b, false) :: cs' => Ok ((negb b, true) :: cs', st)
      | (_, true) :: _ => Err ErrElseAfterElse
      | [] => Err ErrElseWithoutIf
      end
  | DEndif =>
      match cs with
      | _ :: cs' => Ok (cs', st)
      | [] => Err ErrEndifWithoutIf
      end
  | DUnsupported d => Err (ErrUnsupported d)
  | _ =>
      if live cs then do st' <- exec file d st; Ok (cs, st')
      else Ok (cs, st)
  end.

Fixpoint run_lines (file : string) (ds : list directive) (cs : list frame) (st : pp_state)
    : result (list frame * pp_state) :=
  match ds with
  | [] => Ok (cs, st)
  | d :: ds' =>
      do r <- step file d cs st;
      run_lines file ds' (fst r) (snd r)
  end.

(** A whole file: every conditional it opens must be closed in it. *)
Definition run_file (file : string) (ds : list directive) (st : pp_state) : result pp_state :=
  do r <- run_lines file ds [] st;
  match fst r with
  | [] => Ok (snd r)
  | _ :: _ => Err ErrUnterminatedIf
  end.

End Run.

(** A toolchain that has every header, each doing no more than change the
    macro table. *)
Definition supplied (sys : string -> macro_table -> macro_table)
    : string -> pp_state -> result pp_state :=
  fun h st => Ok (PPState (sys h (macros st)) (once st) (log st)).

End Preprocessor.

(** ** The header, and the units that include it *)

Module SmartCL.
Import Source Lexer Directive Preprocessor.

(** The header as the preprocessor sees it. *)
Definition SmartCL_h : list directive :=
  map ln_directive (parse_text SmartCL_h_text).

(** The header includes no file of the project. *)
Definition no_user_header (name : string) (st : pp_state) : result pp_state :=
  Err (ErrFileNotFound name).

(** Reading the header's lines, with whatever toolchain there is. *)
Definition read_SmartCL_h (tc : string -> pp_state -> result pp_state)
    (st : pp_state) : result pp_state :=
  run_file tc no_user_header SmartCL_h_name SmartCL_h st.

(** Reading the header's lines where the toolchain supplies its headers. *)
Definition preprocess_SmartCL_h (sys : string -> macro_table -> macro_table)
    (st : pp_state) : result pp_state :=
  read_SmartCL_h (supplied sys) st.

(** [#include "SmartCL.h"]: a file marked [#pragma once] is not read again. *)
Definition include_SmartCL_h (sys : string -> macro_table -> macro_table)
    (st : pp_state) : result pp_state :=
  if decide (SmartCL_h_name ∈ once st) then Ok st
  else preprocess_SmartCL_h sys st.

(** The files a translation unit of the project can include by name: the
    one header of the fragment, under the name [SmartCL.h]. *)
Definition project_header (sys : string -> macro_table -> macro_table)
    (name : string) (st : pp_state) : result pp_state :=
  if String.eqb name SmartCL_h_name then include_SmartCL_h sys st
  else Err (ErrFileNotFound name).

(** A translation unit, given by its lines. *)
Definition preprocess_unit (sys : string -> macro_table -> macro_table)
    (unit_name : string) (lines : list string) (st : pp_state) : result pp_state :=
  run_file (supplied sys) (project_header sys) unit_name
           (map (fun l => ln_directive (parse_line l)) lines) st.

End SmartCL.

(** ** The vocabulary of the statements *)

Module Effect.
Import Source Lexer Directive Preprocessor SmartCL.

(** The replacement list of [kernel]. *)
Definition kernel_body : list pp_token :=
  [TIdent "extern"; TString "C"; TIdent "__declspec";
   TPunct "("; TIdent "dllexport"; TPunct ")"].

(** The tokens of the warning pragma. *)
Definition warning_4326 : list pp_token :=
  [TIdent "warning"; TPunct "("; TIdent "disable"; TPunct ":";
   TNumber "4326"; TPunct ")"].

(** What the header sends to the translation unit, by whether [_WINDOWS]
    is defined. *)
Definition header_events (windows : bool) : list event :=
  if windows then
    [ EvDefine "WIN32_LEAN_AND_MEAN" []
    ; EvInclude "windows.h"
    ; EvInclude "stdio.h"
    ; EvDefine "kernel" kernel_body
    ; EvDefine "global" []
    ; EvDefine "local" []
    ; EvPragma warning_4326 ]
  else [].

(** The macro table the header leaves, by whether [_WINDOWS] is defined. *)
Definition header_macros (sys : string -> macro_table -> macro_table)
    (windows : bool) (m : macro_table) : macro_table :=
  if windows then
    <["local" := []]> (<["global" := []]> (<["kernel" := kernel_body]>
      (sys "stdio.h" (sys "windows.h" (<["WIN32_LEAN_AND_MEAN" := []]> m)))))
  else m.

(** The part of the log written between two states. *)
Definition emitted (before after : pp_state) : list event :=
  drop (length (log before)) (log after).

Definition definitions_of (evs : list event) : list (string * list pp_token) :=
  omap (fun e => match e with EvDefine x b => Some (x, b) | _ => None end) evs.

Definition includes_of (evs : list event) : list string :=
  omap (fun e => match e with EvInclude h => Some h | _ => None end) evs.

Definition pragmas_of (evs : list event) : list (list pp_token) :=
  omap (fun e => match e with EvPragma ts => Some ts | _ => None end) evs.

Definition texts_of (evs : list event) : list (list pp_token) :=
  omap (fun e => match e with EvText ts => Some ts | _ => None end) evs.

(** The compiler's reading of [#pragma warning (specifier : numbers)]. *)
Definition warning_pragma (toks : list pp_token) : option (string * list string) :=
  match toks with
  | TIdent w :: lp :: TIdent spec :: colon :: rest =>
      match rev rest with
      | rp :: rnums =>
          if String.eqb w "warning" && is_punct "(" lp && is_punct ":" colon && is_punct ")" rp
          then Some (spec, omap (fun t => match t with TNumber n => Some n | _ => None end) (rev rnums))
          else None
      | [] => None
      end
  | _ => None
  end.

(** The state in which the header asks for [<windows.h>] (line 6): the file
    is marked, [WIN32_LEAN_AND_MEAN] is defined, the request is logged. *)
Definition before_windows_h (st : pp_state) : pp_state :=
  PPState (<["WIN32_LEAN_AND_MEAN" := []]> (macros st))
          ({[SmartCL_h_name]} ∪ once st)
          (log st ++ [EvDefine "WIN32_LEAN_AND_MEAN" []; EvInclude "windows.h"]).

(** The state in which the header asks for [<stdio.h>] (line 7), given the
    state [<windows.h>] left. *)
Definition before_stdio_h (s1 : pp_state) : pp_state :=
  PPState (macros s1) (once s1) (log s1 ++ [EvInclude "stdio.h"]).

(** What lines 9 to 13 add to the state [<stdio.h>] left. *)
Definition after_includes (s2 : pp_state) : pp_state :=
  PPState (<["local" := []]> (<["global" := []]> (<["kernel" := kernel_body]> (macros s2))))
          (once s2)
          (log s2 ++ [EvDefine "kernel" kernel_body; EvDefine "global" [];
                      EvDefine "local" []; EvPragma warning_4326]).

(** Counting the lines of each kind. *)
Definition kind_eqb (k1 k2 : line_kind) : bool :=
  match k1, k2 with
  | KBlank, KBlank | KDirective, KDirective | KText, KText => true
  | _, _ => false
  end.

Definition count_kind (k : line_kind) (ds : list directive) : nat :=
  length (filter (fun d => kind_eqb (kind_of d) k = true) ds).

Definition is_define (d : directive) : bool :=
  match d with DDefine _ _ => true | _ => false end.

(** The lines the preprocessor model executes, as opposed to refuses. *)
Definition supported (d : directive) : bool :=
  match d with
  | DUnsupported _ | DMalformed => false
  | _ => true
  end.

(** Including the header [n] times in a row. *)
Fixpoint include_times (sys : string -> macro_table -> macro_table) (n : nat)
    (st : pp_state) : result pp_state :=
  match n with
  | O => Ok st
  | S n' => do st' <- include_SmartCL_h sys st; include_times sys n' st'
  end.

End Effect.

(** ** The header as a program *)

(** The same header written directly as a state transformer, one combinator
    per directive, nested as the file nests them.  [text_denotes_program]
    shows that running the preprocessor on the text computes this program. *)
Module Program.
Import Source Lexer Directive Preprocessor SmartCL Effect.

Definition pp_program : Type := pp_state -> result pp_state.

Definition pragma_once (file : string) : pp_program :=
  fun st => Ok (PPState (macros st) ({[file]} ∪ once st) (log st)).

Definition define (x : string) (body : list pp_token) : pp_program :=
  fun st => Ok (PPState (<[x := body]> (macros st)) (once st)
                        (log st ++ [EvDefine x body])).

Definition include_system (tc : string -> pp_state -> result pp_state) (h : string)
    : pp_program :=
  fun st => tc h (PPState (macros st) (once st) (log st ++ [EvInclude h])).

Definition pragma (toks : list pp_token) : pp_program :=
  fun st => Ok (PPState (macros st) (once st) (log st ++ [EvPragma toks])).

Definition ifdef (x : string) (group : pp_program) : pp_program :=
  fun st => if defined (macros st) x then group st else Ok st.

Definition then_ (p q : pp_program) : pp_program :=
  fun st => do st' <- p st; q st'.

Notation "p ;; q" := (then_ p q) (at level 100, q at level 200, right associativity).

Definition SmartCL_h_program (tc : string -> pp_state -> result pp_state) : pp_program :=
  pragma_once SmartCL_h_name ;;
  ifdef "_WINDOWS" (
    define "WIN32_LEAN_AND_MEAN" [] ;;
    include_system tc "windows.h" ;;
    include_system tc "stdio.h" ;;
    define "kernel" kernel_body ;;
    define "global" [] ;;
    define "local" [] ;;
    pragma warning_4326).

End Program.

(** ** Builds and units to run the header on *)

Module Samples.
Import Source Lexer Directive Preprocessor SmartCL Effect.

(** Two builds and a toolchain to run the header on: a Windows build, where
    the project defines [_WINDOWS]; a build that defines nothing; and
    system headers that each define their own guard macro. *)
Definition windows_build : pp_state :=
  PPState {["_WINDOWS" := []]} ∅ [].

Definition plain_build : pp_state :=
  PPState ∅ ∅ [].

Definition sample_toolchain (h : string) (m : macro_table) : macro_table :=
  <["_INC_" +:+ h := [TNumber "1"]]> m.

(** A toolchain without [<windows.h>], as on a system that is not Windows:
    the header is not found; any other header is there and adds nothing. *)
Definition toolchain_without_windows_h (h : string) (st : pp_state) : result pp_state :=
  if String.eqb h "windows.h" then Err (ErrFileNotFound h) else Ok st.

(** A toolchain whose headers do more than define macros: each marks
    itself, declares a type and defines its guard. *)
Definition rich_toolchain (h : string) (st : pp_state) : result pp_state :=
  Ok (PPState (<["_INC_" +:+ h := [TNumber "1"]]> (macros st))
              ({[h]} ∪ once st)
              (log st ++ [EvText [TIdent "typedef"; TIdent "int"; TIdent "BOOL"; TPunct ";"]])).

(** A second Windows build, unlike [windows_build] in everything but the
    bit: other macros, among them a [kernel] of its own, a file already
    marked, a log already begun. *)
Definition busy_windows_build : pp_state :=
  PPState (<["kernel" := [TIdent "__kernel"]]> {["_WINDOWS" := [TNumber "1"]]})
          {["stdafx.h"]}
          [EvText [TIdent "int"; TIdent "x"; TPunct ";"]].

(** A unit that, after the header, drops [kernel] and asks for the header a
    second time. *)
Definition sample_unit : list string :=
  [ "kernel void scale(global float* v) { }"
  ; "#undef kernel"
  ; "#include " +:+ dquote +:+ "SmartCL.h" +:+ dquote
  ; "kernel" ].

(** The state right after the first inclusion in [windows_build], and the
    state after [sample_unit] has been read from there. *)
Definition first_included : pp_state :=
  PPState (header_macros sample_toolchain true (macros windows_build))
          ({[SmartCL_h_name]} ∪ once windows_build)
          (log windows_build ++ header_events true).

Definition state_or (r : result pp_state) (d : pp_state) : pp_state :=
  match r with
  | Ok s => s
  | Err _ => d
  end.

(** The states [rich_toolchain] leaves after each of the two headers, in
    [windows_build]. *)
Definition rich_after_windows_h : pp_state :=
  state_or (rich_toolchain "windows.h" (before_windows_h windows_build)) windows_build.

Definition rich_after_stdio_h : pp_state :=
  state_or (rich_toolchain "stdio.h" (before_stdio_h rich_after_windows_h)) windows_build.

Definition after_sample_unit : pp_state :=
  state_or (preprocess_unit sample_toolchain "scale.cpp" sample_unit first_included)
           first_included.

(** A kernel source of the kind the header is written for: the header,
    then a function qualified with the three names. *)
Definition kernel_unit : list string :=
  [ "#include " +:+ dquote +:+ "SmartCL.h" +:+ dquote
  ; "kernel void scale(global float* v, local float* t) { }" ].

End Samples.

(** ** Dependents of the header *)

(** What a translation unit that includes the header can observe: how its
    program text is rewritten, in which order it may set [_WINDOWS], how
    often the header pulls in [<windows.h>]. *)
Module Dependents.
Import Source Lexer Directive Preprocessor SmartCL Effect.

(** The line by which a unit includes the header. *)
Definition include_line : string :=
  "#include " +:+ dquote +:+ "SmartCL.h" +:+ dquote.

(** A unit that sets [_WINDOWS] only after it has included the header, and
    then includes the header again. *)
Definition late_windows_unit : list string :=
  [ include_line; "#define _WINDOWS"; include_line ].

(** A unit that sets [_WINDOWS] to zero and includes the header. *)
Definition zero_windows_unit : list string :=
  [ "#define _WINDOWS 0"; include_line ].

(** What the header's three macros do to one token of program text:
    [kernel] becomes its replacement list, [global] and [local] vanish,
    any other token stays. *)
Definition qualify (t : pp_token) : list pp_token :=
  match t with
  | TIdent x =>
      if String.eqb x "kernel" then kernel_body
      else if String.eqb x "global" then []
      else if String.eqb x "local" then []
      else [t]
  | _ => [t]
  end.

(** The tokens of a kernel declaration, as the lexer delivers them. *)
Definition kernel_line_tokens : list pp_token :=
  map snd (lx_tokens (lex_line "kernel void scale(global float* v, local float* t) { }")).

(** The state the header leaves when it is read in a build that defines
    nothing. *)
Definition plain_included : pp_state :=
  PPState ∅ {[SmartCL_h_name]} [].

(** The number of times the log records the inclusion of [<h>]. *)
Definition is_include (h : string) (e : event) : bool :=
  match e with
  | EvInclude h' => String.eqb h' h
  | _ => false
  end.

Fixpoint count_includes (h : string) (l : list event) : nat :=
  match l with
  | [] => 0
  | e :: l' => (if is_include h e then 1 else 0) + count_includes h l'
  end.

(** A line of the unit that itself asks for [<h>]. *)
Definition asks_for (h : string) (d : directive) : bool :=
  match d with
  | DInclude (SysHeader h') => String.eqb h' h
  | _ => false
  end.

(** One while the header has not been read, zero once it is marked. *)
Definition pending_read (st : pp_state) : nat :=
  if decide (SmartCL_h_name ∈ once st) then 0 else 1.

(** A unit that asks for the header four times, twice inside conditional
    groups. *)
Definition eager_unit : list string :=
  [ include_line
  ; "#ifdef _WINDOWS"
  ; include_line
  ; "#else"
  ; include_line
  ; "#endif"
  ; "kernel void f(global int* p) { }"
  ; include_line ].

Definition eager_directives : list directive :=
  map (fun l => ln_directive (parse_line l)) eager_unit.

Definition after_eager_unit : pp_state :=
  Samples.state_or
    (preprocess_unit Samples.sample_toolchain "eager.cpp" eager_unit Samples.windows_build)
    Samples.windows_build.

End Dependents.

(** ** What the header says, read off the text *)

Module Facts.
Import Source Lexer Directive Preprocessor SmartCL Effect Samples.

(** *** The text and its lines *)

Lemma SmartCL_h_text_lines : split_lines SmartCL_h_text = SmartCL_h_lines.
Proof. vm_compute. reflexivity. Qed.

Lemma SmartCL_h_directives :
  SmartCL_h =
  [ DPragma [TIdent "once"]; DBlank
  ; DIfdef "_WINDOWS"; DBlank
  ; DDefine "WIN32_LEAN_AND_MEAN" []
  ; DInclude (SysHeader "windows.h")
  ; DInclude (SysHeader "stdio.h"); DBlank
  ; DDefine "kernel" kernel_body
  ; DDefine "global" []
  ; DDefine "local" []; DBlank
  ; DPragma warning_4326; DBlank
  ; DEndif ].
Proof. vm_compute. reflexivity. Qed.

(** *** Reading the header: the whole effect, in closed form *)

(** Runs the interpreter on the directives in the goal, as far as they are
    known, and flattens the log. *)
Ltac run_pp :=
  repeat progress
    (cbn [run_lines step exec bind live forallb fst snd macros once log emit andb
          is_pragma_once String.eqb Ascii.eqb Bool.eqb app supplied];
     try change (is_pragma_once warning_4326) with false;
     unfold emit;
     rewrite <- ?app_assoc).

Lemma emitted_app (st st' : pp_state) (evs : list event) :
  log st' = log st ++ evs -> emitted st st' = evs.
Proof. intros E. unfold emitted. rewrite E. apply drop_app_length. Qed.

Lemma preprocess_SmartCL_h_eq (sys : string -> macro_table -> macro_table) (st : pp_state) :
  preprocess_SmartCL_h sys st =
  Ok (PPState (header_macros sys (defined (macros st) "_WINDOWS") (macros st))
              ({[SmartCL_h_name]} ∪ once st)
              (log st ++ header_events (defined (macros st) "_WINDOWS"))).
Proof.
  unfold preprocess_SmartCL_h, read_SmartCL_h. rewrite SmartCL_h_directives.
  unfold run_file.
  destruct (defined (macros st) "_WINDOWS") eqn:W; run_pp; rewrite W; run_pp;
    cbn [header_macros header_events]; rewrite ?app_nil_r; reflexivity.
Qed.

Lemma preprocess_SmartCL_h_emitted (sys : string -> macro_table -> macro_table) (st : pp_state) :
  exists st',
    preprocess_SmartCL_h sys st = Ok st' /\
    macros st' = header_macros sys (defined (macros st) "_WINDOWS") (macros st) /\
    once st' = {[SmartCL_h_name]} ∪ once st /\
    emitted st st' = header_events (defined (macros st) "_WINDOWS").
Proof.
  rewrite preprocess_SmartCL_h_eq. eexists. split; [reflexivity|].
  cbn [macros once log]. repeat split. by apply emitted_app.
Qed.

Lemma text_denotes_program (tc : string -> pp_state -> result pp_state) (st : pp_state) :
  read_SmartCL_h tc st = Program.SmartCL_h_program tc st.
Proof.
  unfold read_SmartCL_h. rewrite SmartCL_h_directives. unfold run_file.
  unfold Program.SmartCL_h_program, Program.then_, Program.ifdef, Program.pragma_once,
    Program.define, Program.include_system, Program.pragma.
  destruct (defined (macros st) "_WINDOWS") eqn:W; run_pp; rewrite ?W; run_pp;
    [|reflexivity].
  destruct (tc "windows.h" _) as [s1|e]; run_pp; [|reflexivity].
  destruct (tc "stdio.h" _) as [s2|e]; run_pp; reflexivity.
Qed.

(** Reading the header with any toolchain: the run succeeds exactly when
    the reads of the two system headers do, and stops with the toolchain's
    error at the first that does not. *)
Lemma read_SmartCL_h_eq (tc : string -> pp_state -> result pp_state) (st : pp_state) :
  read_SmartCL_h tc st =
  if defined (macros st) "_WINDOWS" then
    do s1 <- tc "windows.h" (before_windows_h st);
    do s2 <- tc "stdio.h" (before_stdio_h s1);
    Ok (after_includes s2)
  else Ok (PPState (macros st) ({[SmartCL_h_name]} ∪ once st) (log st)).
Proof.
  unfold read_SmartCL_h. rewrite SmartCL_h_directives. unfold run_file.
  unfold before_windows_h, before_stdio_h, after_includes.
  destruct (defined (macros st) "_WINDOWS") eqn:W; run_pp; rewrite ?W; run_pp;
    [|reflexivity].
  destruct (tc "windows.h" _) as [s1|e]; run_pp; [|reflexivity].
  destruct (tc "stdio.h" _) as [s2|e]; run_pp; reflexivity.
Qed.

(** *** Macro replacement *)

Lemma expand_fuel_agree (n k : nat) (m : macro_table) (ts : list pp_token) :
  size m < n -> size m < k -> expand_fuel n m ts = expand_fuel k m ts.
Proof.
  revert k m ts. induction n as [|n IH]; intros k m ts Hn Hk; [lia|].
  destruct k as [|k]; [lia|]. cbn [expand_fuel].
  apply flat_map_ext. intros [x| | | |]; try reflexivity.
  destruct (m !! x) as [body|] eqn:E; [|reflexivity].
  pose proof (map_size_delete_Some x m (ex_intro _ body E)) as Hs.
  assert (size m <> 0) by (apply (map_size_ne_0_lookup_2 m x); eauto).
  apply IH; lia.
Qed.

(** The fuel of [expand] is enough: more fuel changes nothing. *)
Lemma expand_fuel_enough (n : nat) (m : macro_table) (ts : list pp_token) :
  size m < n -> expand_fuel n m ts = expand m ts.
Proof. intros Hn. unfold expand. apply expand_fuel_agree; lia. Qed.

Lemma expand_app (m : macro_table) (ts1 ts2 : list pp_token) :
  expand m (ts1 ++ ts2) = expand m ts1 ++ expand m ts2.
Proof. unfold expand. cbn [expand_fuel]. apply flat_map_app. Qed.

Lemma expand_cons (m : macro_table) (t : pp_token) (ts : list pp_token) :
  expand m (t :: ts) = expand m [t] ++ expand m ts.
Proof. apply (expand_app m [t] ts). Qed.

Lemma expand_fuel_nil (n : nat) (m : macro_table) : expand_fuel n m [] = [].
Proof. destruct n; reflexivity. Qed.

(** A macro with an empty replacement list vanishes from the text. *)
Lemma expand_empty_macro (m : macro_table) (x : string) :
  m !! x = Some [] -> expand m [TIdent x] = [].
Proof.
  intros E. unfold expand. cbn [expand_fuel flat_map]. rewrite E.
  rewrite expand_fuel_nil. reflexivity.
Qed.

(** A name that is not a macro stays as it is written. *)
Lemma expand_not_macro (m : macro_table) (x : string) :
  m !! x = None -> expand m [TIdent x] = [TIdent x].
Proof. intros E. unfold expand. cbn [expand_fuel flat_map]. rewrite E. reflexivity. Qed.

(** [kernel] is replaced by its six tokens, which stay as they are when
    none of the three identifiers among them is itself a macro. *)
Lemma expand_kernel (m : macro_table) :
  m !! "kernel" = Some kernel_body ->
  m !! "extern" = None -> m !! "__declspec" = None -> m !! "dllexport" = None ->
  expand m [TIdent "kernel"] = kernel_body.
Proof.
  intros K E1 E2 E3. unfold expand. cbn [expand_fuel flat_map]. rewrite K.
  destruct (size m) as [|n] eqn:Hs.
  { apply map_size_empty_inv in Hs. subst m. rewrite lookup_empty in K. discriminate. }
  unfold kernel_body. cbn [expand_fuel flat_map].
  rewrite !lookup_delete_ne by discriminate. rewrite E1, E2, E3. reflexivity.
Qed.

(** *** Off Windows: the three names stay what they were *)

(** When [_WINDOWS] is not defined the header leaves the macro table alone,
    so a name is a macro after the header exactly when it was one before,
    and a name that is no macro reaches the compiler as it is written.  The
    preprocessor itself reports nothing for such a name; what the compiler
    then makes of the identifier is outside this development. *)
Lemma names_left_alone_elsewhere (sys : string -> macro_table -> macro_table)
    (st : pp_state) (x : string) :
  defined (macros st) "_WINDOWS" = false ->
  exists st',
    preprocess_SmartCL_h sys st = Ok st' /\
    macros st' = macros st /\
    defined (macros st') x = defined (macros st) x /\
    (defined (macros st) x = false -> expand (macros st') [TIdent x] = [TIdent x]).
Proof.
  intros W. rewrite preprocess_SmartCL_h_eq, W. eexists. split; [reflexivity|].
  cbn [macros header_macros]. repeat split.
  unfold defined. destruct (macros st !! x) eqn:E; [discriminate|].
  intros _. by apply expand_not_macro.
Qed.

Example kernel_unit_elsewhere :
  texts_of (log (state_or (preprocess_unit sample_toolchain "scale.cl" kernel_unit plain_build)
                          plain_build)) =
  [ [ TIdent "kernel"; TIdent "void"; TIdent "scale"; TPunct "(";
      TIdent "global"; TIdent "float"; TPunct "*"; TIdent "v"; TPunct ",";
      TIdent "local"; TIdent "float"; TPunct "*"; TIdent "t"; TPunct ")";
      TPunct "{"; TPunct "}" ] ].
Proof. vm_compute. reflexivity. Qed.

Example kernel_unit_on_windows :
  texts_of (log (state_or (preprocess_unit sample_toolchain "scale.cpp" kernel_unit windows_build)
                          windows_build)) =
  [ [ TIdent "extern"; TString "C"; TIdent "__declspec"; TPunct "(";
      TIdent "dllexport"; TPunct ")"; TIdent "void"; TIdent "scale"; TPunct "(";
      TIdent "float"; TPunct "*"; TIdent "v"; TPunct ",";
      TIdent "float"; TPunct "*"; TIdent "t"; TPunct ")";
      TPunct "{"; TPunct "}" ] ].
Proof. vm_compute. reflexivity. Qed.

(** *** The [#pragma once] mark *)

(** No directive removes a mark: the set of marked files only grows, as
    long as the project's headers do not remove marks either. *)
Section OnceGrows.

Variable sys : string -> macro_table -> macro_table.
Variable user : string -> pp_state -> result pp_state.
Hypothesis user_grows :
  forall h st st', user h st = Ok st' -> once st ⊆ once st'.

Lemma exec_once_grows (file : string) (d : directive) (st st' : pp_state) :
  exec (supplied sys) user file d st = Ok st' -> once st ⊆ once st'.
Proof.
  destruct d as [ |ts|ts|x|x| | |x b|x|[h|h]|x| ]; cbn [exec];
    try (intros [= <-]; cbn [emit once]; set_solver);
    try discriminate.
  - destruct (is_pragma_once ts); intros [= <-]; cbn [emit once]; set_solver.
  - apply user_grows.
Qed.

Lemma step_once_grows (file : string) (d : directive) (cs cs' : list frame)
    (st st' : pp_state) :
  step (supplied sys) user file d cs st = Ok (cs', st') -> once st ⊆ once st'.
Proof.
  assert (Live : forall d0,
            (if live cs then do s <- exec (supplied sys) user file d0 st; Ok (cs, s)
             else Ok (cs, st)) = Ok (cs', st') -> once st ⊆ once st').
  { intros d0. destruct (live cs); [|by intros [= _ <-]].
    destruct (exec (supplied sys) user file d0 st) as [s|e] eqn:X; cbn [bind]; [|discriminate].
    intros [= _ <-]. by eapply exec_once_grows. }
  destruct d as [ |ts|ts|x|x| | |x b|x|h|x| ]; cbn [step];
    try apply Live; try (by intros [= _ <-]); try discriminate.
  - destruct cs as [|[b [|]] cs0]; try discriminate. by intros [= _ <-].
  - destruct cs as [|f cs0]; try discriminate. by intros [= _ <-].
Qed.

Lemma run_lines_once_grows (file : string) (ds : list directive) :
  forall (cs cs' : list frame) (st st' : pp_state),
    run_lines (supplied sys) user file ds cs st = Ok (cs', st') -> once st ⊆ once st'.
Proof.
  induction ds as [|d ds IH]; intros cs cs' st st'; cbn [run_lines].
  - by intros [= _ <-].
  - destruct (step (supplied sys) user file d cs st) as [[cs1 st1]|e] eqn:S1; cbn [bind fst snd];
      [|discriminate].
    intros R. apply step_once_grows in S1. apply IH in R. set_solver.
Qed.

Lemma run_file_once_grows (file : string) (ds : list directive) (st st' : pp_state) :
  run_file (supplied sys) user file ds st = Ok st' -> once st ⊆ once st'.
Proof.
  unfold run_file.
  destruct (run_lines (supplied sys) user file ds [] st) as [[cs1 st1]|e] eqn:R; cbn [bind fst snd];
    [|discriminate].
  destruct cs1; [|discriminate]. intros [= <-]. by eapply run_lines_once_grows.
Qed.

End OnceGrows.

(** Reading the header marks it. *)
Lemma include_SmartCL_h_marks (sys : string -> macro_table -> macro_table)
    (st st' : pp_state) :
  include_SmartCL_h sys st = Ok st' ->
  SmartCL_h_name ∈ once st' /\ once st ⊆ once st'.
Proof.
  unfold include_SmartCL_h. destruct (decide (SmartCL_h_name ∈ once st)) as [In|Out].
  - intros [= <-]. split; [exact In | reflexivity].
  - rewrite preprocess_SmartCL_h_eq. intros [= <-]. cbn [once]. set_solver.
Qed.

(** Including the header always succeeds. *)
Lemma include_SmartCL_h_succeeds (sys : string -> macro_table -> macro_table)
    (st : pp_state) :
  exists st', include_SmartCL_h sys st = Ok st'.
Proof.
  unfold include_SmartCL_h. destruct (decide (SmartCL_h_name ∈ once st)).
  - by exists st.
  - rewrite preprocess_SmartCL_h_eq. by eexists.
Qed.

(** A marked header is not read again: the state stays as it is. *)
Lemma include_SmartCL_h_marked (sys : string -> macro_table -> macro_table) (st : pp_state) :
  SmartCL_h_name ∈ once st -> include_SmartCL_h sys st = Ok st.
Proof. intros In. unfold include_SmartCL_h. by rewrite decide_True. Qed.

Lemma include_times_marked (sys : string -> macro_table -> macro_table) (n : nat)
    (st : pp_state) :
  SmartCL_h_name ∈ once st -> include_times sys n st = Ok st.
Proof.
  intros In. induction n as [|n IH]; cbn [include_times]; [reflexivity|].
  rewrite include_SmartCL_h_marked by exact In. exact IH.
Qed.

Lemma project_header_once_grows (sys : string -> macro_table -> macro_table)
    (h : string) (st st' : pp_state) :
  project_header sys h st = Ok st' -> once st ⊆ once st'.
Proof.
  unfold project_header. destruct (String.eqb h SmartCL_h_name); [|discriminate].
  intros I. by apply include_SmartCL_h_marks in I as [_ ?].
Qed.

Lemma preprocess_unit_once_grows (sys : string -> macro_table -> macro_table)
    (unit_name : string) (lines : list string) (st st' : pp_state) :
  preprocess_unit sys unit_name lines st = Ok st' -> once st ⊆ once st'.
Proof.
  unfold preprocess_unit. apply run_file_once_grows, project_header_once_grows.
Qed.

End Facts.

(** ** The properties of the header *)

Module Spec.
Import Source Lexer Directive Preprocessor SmartCL Effect Samples Facts.

(** C1, corrected.  As the claim has it, "every build in which [_WINDOWS]
    is defined", the statement fails: where the toolchain has no
    [<windows.h>] the header stops at line 6 and [kernel] is never defined
    (the refutation follows the theorem).  What holds: in every build
    that defines [_WINDOWS] and in which the reads of [<windows.h>] and
    [<stdio.h>] succeed, whatever these headers do to the state, reading the
    header succeeds and leaves [kernel] defined with the replacement list
    [extern "C" __declspec(dllexport)], six tokens spelled exactly so; in
    program text [kernel] is replaced by those tokens (which stay as
    written when [extern], [__declspec] and [dllexport] are not macros
    themselves). *)
Theorem kernel_defined_where_headers_are_read
    (tc : string -> pp_state -> result pp_state) (st s1 s2 : pp_state) :
  defined (macros st) "_WINDOWS" = true ->
  tc "windows.h" (before_windows_h st) = Ok s1 ->
  tc "stdio.h" (before_stdio_h s1) = Ok s2 ->
  exists st',
    read_SmartCL_h tc st = Ok st' /\
    st' = after_includes s2 /\
    macros st' !! "kernel" = Some kernel_body /\
    map spelling kernel_body =
      ["extern"; dquote +:+ "C" +:+ dquote; "__declspec"; "("; "dllexport"; ")"] /\
    (macros st' !! "extern" = None -> macros st' !! "__declspec" = None ->
     macros st' !! "dllexport" = None ->
     expand (macros st') [TIdent "kernel"] = kernel_body).
Proof.
  intros W R1 R2. rewrite read_SmartCL_h_eq, W, R1. cbn [bind]. rewrite R2. cbn [bind].
  eexists. split; [reflexivity|]. split; [reflexivity|].
  assert (K : macros (after_includes s2) !! "kernel" = Some kernel_body).
  { unfold after_includes. cbn [macros].
    rewrite !lookup_insert_ne by discriminate. apply lookup_insert_eq. }
  split; [exact K|]. split; [reflexivity|].
  intros E1 E2 E3. by apply expand_kernel.
Qed.

Lemma kernel_defined_where_headers_are_read_witness :
  defined (macros windows_build) "_WINDOWS" = true /\
  rich_toolchain "windows.h" (before_windows_h windows_build) = Ok rich_after_windows_h /\
  rich_toolchain "stdio.h" (before_stdio_h rich_after_windows_h) = Ok rich_after_stdio_h /\
  exists st',
    read_SmartCL_h rich_toolchain windows_build = Ok st' /\
    macros st' !! "kernel" = Some kernel_body /\
    expand (macros st') [TIdent "kernel"] = kernel_body.
Proof.
  assert (W : defined (macros windows_build) "_WINDOWS" = true) by (vm_compute; reflexivity).
  assert (R1 : rich_toolchain "windows.h" (before_windows_h windows_build)
               = Ok rich_after_windows_h) by reflexivity.
  assert (R2 : rich_toolchain "stdio.h" (before_stdio_h rich_after_windows_h)
               = Ok rich_after_stdio_h) by reflexivity.
  split; [exact W|]. split; [exact R1|]. split; [exact R2|].
  destruct (kernel_defined_where_headers_are_read rich_toolchain windows_build
              rich_after_windows_h rich_after_stdio_h W R1 R2)
    as (st' & R & E & K & _ & X).
  exists st'. split; [exact R|]. split; [exact K|].
  apply X; rewrite E; vm_compute; reflexivity.
Defined.

(** C1 as stated, refuted: a build that defines [_WINDOWS] with a
    toolchain that has no [<windows.h>].  The run stops at the include with
    the toolchain's error; no state results, and so no [kernel]. *)
Lemma kernel_not_defined_without_windows_h :
  defined (macros windows_build) "_WINDOWS" = true /\
  read_SmartCL_h toolchain_without_windows_h windows_build
    = Err (ErrFileNotFound "windows.h") /\
  ~ (exists st',
       read_SmartCL_h toolchain_without_windows_h windows_build = Ok st' /\
       macros st' !! "kernel" = Some kernel_body).
Proof.
  assert (R : read_SmartCL_h toolchain_without_windows_h windows_build
              = Err (ErrFileNotFound "windows.h")) by (vm_compute; reflexivity).
  split; [vm_compute; reflexivity|]. split; [exact R|].
  intros (st' & R' & _). rewrite R in R'. discriminate.
Qed.

(** C3.  In every build that defines [_WINDOWS], the header leaves [global]
    and [local] defined as object-like macros with empty replacement lists,
    and every occurrence of either name in program text is replaced by
    nothing. *)
Theorem global_local_empty_on_windows
    (sys : string -> macro_table -> macro_table) (st : pp_state) :
  defined (macros st) "_WINDOWS" = true ->
  exists st',
    preprocess_SmartCL_h sys st = Ok st' /\
    macros st' !! "global" = Some [] /\
    macros st' !! "local" = Some [] /\
    (forall pre post : list pp_token,
       expand (macros st') (pre ++ TIdent "global" :: post) =
       expand (macros st') pre ++ expand (macros st') post) /\
    (forall pre post : list pp_token,
       expand (macros st') (pre ++ TIdent "local" :: post) =
       expand (macros st') pre ++ expand (macros st') post).
Proof.
  intros W. rewrite preprocess_SmartCL_h_eq, W. eexists. split; [reflexivity|].
  cbn [macros header_macros].
  set (m := (<["local" := []]> _ : macro_table)).
  assert (G : m !! "global" = Some []).
  { subst m. rewrite lookup_insert_ne by discriminate. apply lookup_insert_eq. }
  assert (L : m !! "local" = Some []).
  { subst m. apply lookup_insert_eq. }
  split; [exact G|]. split; [exact L|].
  split; intros pre post; rewrite expand_app, expand_cons.
  - by rewrite (expand_empty_macro m "global").
  - by rewrite (expand_empty_macro m "local").
Qed.

Lemma global_local_empty_on_windows_witness :
  defined (macros windows_build) "_WINDOWS" = true /\
  exists st',
    preprocess_SmartCL_h sample_toolchain windows_build = Ok st' /\
    macros st' !! "global" = Some [] /\
    macros st' !! "local" = Some [] /\
    (forall pre post : list pp_token,
       expand (macros st') (pre ++ TIdent "global" :: post) =
       expand (macros st') pre ++ expand (macros st') post) /\
    (forall pre post : list pp_token,
       expand (macros st') (pre ++ TIdent "local" :: post) =
       expand (macros st') pre ++ expand (macros st') post).
Proof.
  split; [vm_compute; reflexivity|].
  apply (global_local_empty_on_windows sample_toolchain windows_build).
  vm_compute; reflexivity.
Defined.

(** C4.  In every build that does not define [_WINDOWS], reading the header
    succeeds and sends nothing to the translation unit: no text, no include,
    no macro definition, no pragma.  The macro table is left as it was; the
    only trace is the preprocessor's own note that the file is marked
    [#pragma once]. *)
Theorem header_empty_elsewhere
    (sys : string -> macro_table -> macro_table) (st : pp_state) :
  defined (macros st) "_WINDOWS" = false ->
  exists st',
    preprocess_SmartCL_h sys st = Ok st' /\
    emitted st st' = [] /\
    log st' = log st /\
    macros st' = macros st /\
    once st' = {[SmartCL_h_name]} ∪ once st /\
    texts_of (emitted st st') = [] /\
    includes_of (emitted st st') = [] /\
    definitions_of (emitted st st') = [] /\
    pragmas_of (emitted st st') = [].
Proof.
  intros W. rewrite preprocess_SmartCL_h_eq, W. eexists. split; [reflexivity|].
  cbn [macros once log header_macros header_events].
  assert (E : emitted st (PPState (macros st) ({[SmartCL_h_name]} ∪ once st) (log st ++ [])) = []).
  { by apply emitted_app. }
  rewrite E, app_nil_r. repeat split.
Qed.

Lemma header_empty_elsewhere_witness :
  defined (macros plain_build) "_WINDOWS" = false /\
  exists st',
    preprocess_SmartCL_h sample_toolchain plain_build = Ok st' /\
    emitted plain_build st' = [] /\
    log st' = log plain_build /\
    macros st' = macros plain_build /\
    once st' = {[SmartCL_h_name]} ∪ once plain_build /\
    texts_of (emitted plain_build st') = [] /\
    includes_of (emitted plain_build st') = [] /\
    definitions_of (emitted plain_build st') = [] /\
    pragmas_of (emitted plain_build st') = [].
Proof.
  split; [vm_compute; reflexivity|].
  apply (header_empty_elsewhere sample_toolchain plain_build).
  vm_compute; reflexivity.
Defined.

(** C5.  The header includes [<windows.h>] and [<stdio.h>], in this
    order, exactly when [_WINDOWS] is defined; when it is not, the header
    includes no file.  The two [#include] lines are the only ones in the
    file, and both name toolchain headers. *)
Theorem includes_iff_windows
    (sys : string -> macro_table -> macro_table) (st : pp_state) :
  exists st',
    preprocess_SmartCL_h sys st = Ok st' /\
    includes_of (emitted st st') =
      (if defined (macros st) "_WINDOWS" then ["windows.h"; "stdio.h"] else []) /\
    ("windows.h" ∈ includes_of (emitted st st') <-> defined (macros st) "_WINDOWS" = true) /\
    ("stdio.h" ∈ includes_of (emitted st st') <-> defined (macros st) "_WINDOWS" = true) /\
    omap (fun d => match d with DInclude h => Some h | _ => None end) SmartCL_h =
      [SysHeader "windows.h"; SysHeader "stdio.h"].
Proof.
  destruct (preprocess_SmartCL_h_emitted sys st) as (st' & R & _ & _ & E).
  exists st'. split; [exact R|]. rewrite E.
  destruct (defined (macros st) "_WINDOWS"); cbn [header_events includes_of omap].
  - split; [reflexivity|]. split; [|split; [|reflexivity]].
    + split; [reflexivity|]. intros _. apply list_elem_of_here.
    + split; [reflexivity|]. intros _. apply list_elem_of_further, list_elem_of_here.
  - split; [reflexivity|]. split; [|split; [|reflexivity]].
    + split; [intros H; by apply elem_of_nil in H | discriminate].
    + split; [intros H; by apply elem_of_nil in H | discriminate].
Qed.

(** C6.  The first line of the header is [#pragma once], and with it
    including the header again changes nothing.  Whatever the build and
    whatever the translation unit did before: once the header has been
    included, including it one more time, or any number of times, leaves the
    whole preprocessing state (macros, includes and pragmas sent, marks) as
    the first inclusion left it; and this stays so after any further lines
    of the translation unit, which cannot take the mark away. *)
Theorem include_again_changes_nothing
    (sys : string -> macro_table -> macro_table) (st st1 : pp_state)
    (unit_name : string) (lines : list string) (st2 : pp_state) :
  include_SmartCL_h sys st = Ok st1 ->
  preprocess_unit sys unit_name lines st1 = Ok st2 ->
  head SmartCL_h = Some (DPragma [TIdent "once"]) /\
  SmartCL_h_name ∈ once st1 /\
  (forall n, include_times sys (S n) st = include_times sys 1 st) /\
  (forall n, include_times sys (S n) st = Ok st1) /\
  include_SmartCL_h sys st2 = Ok st2 /\
  (forall n, include_times sys n st2 = Ok st2).
Proof.
  intros I1 U.
  destruct (include_SmartCL_h_marks sys st st1 I1) as [M1 _].
  assert (M2 : SmartCL_h_name ∈ once st2).
  { apply preprocess_unit_once_grows in U. set_solver. }
  assert (T : forall n, include_times sys (S n) st = Ok st1).
  { intros n. cbn [include_times]. rewrite I1. cbn [bind].
    by apply include_times_marked. }
  split; [vm_compute; reflexivity|]. split; [exact M1|].
  split; [intros n; by rewrite !T|]. split; [exact T|].
  split; [by apply include_SmartCL_h_marked | intros n; by apply include_times_marked].
Qed.

Lemma include_again_changes_nothing_witness :
  include_SmartCL_h sample_toolchain windows_build = Ok first_included /\
  preprocess_unit sample_toolchain "scale.cpp" sample_unit first_included
    = Ok after_sample_unit /\
  macros after_sample_unit !! "kernel" = None /\
  include_times sample_toolchain 3 windows_build = Ok first_included /\
  include_SmartCL_h sample_toolchain after_sample_unit = Ok after_sample_unit.
Proof.
  assert (I1 : include_SmartCL_h sample_toolchain windows_build = Ok first_included)
    by (vm_compute; reflexivity).
  assert (U : preprocess_unit sample_toolchain "scale.cpp" sample_unit first_included
              = Ok after_sample_unit)
    by (vm_compute; reflexivity).
  destruct (include_again_changes_nothing sample_toolchain windows_build first_included
              "scale.cpp" sample_unit after_sample_unit I1 U) as (_ & _ & _ & T & I2 & _).
  split; [exact I1|]. split; [exact U|]. split; [vm_compute; reflexivity|].
  split; [apply T | exact I2].
Defined.

(** C7.  The header passes [#pragma warning (disable : 4326)] to the
    compiler exactly when [_WINDOWS] is defined, and no other pragma in
    either case.  The pragma reads as "disable warning 4326", and the
    source line carries the comment "For void main". *)
Theorem warning_pragma_iff_windows
    (sys : string -> macro_table -> macro_table) (st : pp_state) :
  exists st',
    preprocess_SmartCL_h sys st = Ok st' /\
    pragmas_of (emitted st st') =
      (if defined (macros st) "_WINDOWS" then [warning_4326] else []) /\
    (warning_4326 ∈ pragmas_of (emitted st st') <-> defined (macros st) "_WINDOWS" = true) /\
    map spelling warning_4326 = ["warning"; "("; "disable"; ":"; "4326"; ")"] /\
    warning_pragma warning_4326 = Some ("disable", ["4326"]) /\
    parse_text SmartCL_h_text !! 12 = Some (Line (DPragma warning_4326) (Some " For void main")).
Proof.
  destruct (preprocess_SmartCL_h_emitted sys st) as (st' & R & _ & _ & E).
  exists st'. split; [exact R|]. rewrite E.
  destruct (defined (macros st) "_WINDOWS"); cbn [header_events pragmas_of omap].
  - split; [reflexivity|]. split; [|repeat split; vm_compute; reflexivity].
    split; [reflexivity|]. intros _. apply list_elem_of_here.
  - split; [reflexivity|]. split; [|repeat split; vm_compute; reflexivity].
    split; [intros H; by apply elem_of_nil in H | discriminate].
Qed.

(** C8.  The file has exactly 15 lines.  Ten of them are preprocessing
    directives (four of these are macro definitions), five are blank, and
    none holds program text: no declaration, no definition, no statement.
    Every directive is one the preprocessor model executes. *)
Theorem SmartCL_h_fifteen_lines_all_directives :
  length (split_lines SmartCL_h_text) = 15 /\
  String.length SmartCL_h_text = 247 /\
  length SmartCL_h = 15 /\
  count_kind KDirective SmartCL_h = 10 /\
  count_kind KBlank SmartCL_h = 5 /\
  count_kind KText SmartCL_h = 0 /\
  length (filter (fun d => is_define d = true) SmartCL_h) = 4 /\
  Forall (fun d => kind_of d <> KText) SmartCL_h /\
  Forall (fun d => supported d = true) SmartCL_h.
Proof.
  repeat split; try (vm_compute; reflexivity);
    rewrite SmartCL_h_directives; repeat constructor; discriminate.
Qed.

(** C9.  In every build that defines [_WINDOWS], the header defines a
    fourth macro, [WIN32_LEAN_AND_MEAN], with an empty replacement list, and
    does so right before it includes [<windows.h>]: the table handed to
    [<windows.h>] holds the macro.  The definition stays in force after the
    header whenever the system headers leave it alone. *)
Theorem WIN32_LEAN_AND_MEAN_before_windows_h
    (sys : string -> macro_table -> macro_table) (st : pp_state) :
  defined (macros st) "_WINDOWS" = true ->
  exists st',
    preprocess_SmartCL_h sys st = Ok st' /\
    definitions_of (emitted st st') =
      [("WIN32_LEAN_AND_MEAN", []); ("kernel", kernel_body); ("global", []); ("local", [])] /\
    (exists rest,
       emitted st st' = EvDefine "WIN32_LEAN_AND_MEAN" [] :: EvInclude "windows.h" :: rest) /\
    (exists at_include : macro_table,
       at_include !! "WIN32_LEAN_AND_MEAN" = Some [] /\
       macros st' =
         <["local" := []]> (<["global" := []]> (<["kernel" := kernel_body]>
           (sys "stdio.h" (sys "windows.h" at_include))))) /\
    ((forall h m, m !! "WIN32_LEAN_AND_MEAN" = Some [] ->
                  sys h m !! "WIN32_LEAN_AND_MEAN" = Some []) ->
     macros st' !! "WIN32_LEAN_AND_MEAN" = Some []).
Proof.
  intros W.
  destruct (preprocess_SmartCL_h_emitted sys st) as (st' & R & M & _ & E).
  exists st'. split; [exact R|]. rewrite E, M, W. cbn [header_events header_macros].
  split; [reflexivity|]. split; [eexists; reflexivity|]. split.
  - exists (<["WIN32_LEAN_AND_MEAN" := []]> (macros st)).
    split; [apply lookup_insert_eq | reflexivity].
  - intros Keep. rewrite !lookup_insert_ne by discriminate.
    apply Keep, Keep, lookup_insert_eq.
Qed.

Lemma WIN32_LEAN_AND_MEAN_before_windows_h_witness :
  defined (macros windows_build) "_WINDOWS" = true /\
  exists st',
    preprocess_SmartCL_h sample_toolchain windows_build = Ok st' /\
    macros st' !! "WIN32_LEAN_AND_MEAN" = Some [].
Proof.
  split; [vm_compute; reflexivity|].
  destruct (WIN32_LEAN_AND_MEAN_before_windows_h sample_toolchain windows_build)
    as (st' & R & _ & _ & _ & Keep); [vm_compute; reflexivity|].
  exists st'. split; [exact R|]. apply Keep.
  intros h m E. unfold sample_toolchain.
  rewrite lookup_insert_ne; [exact E|]. discriminate.
Defined.

(** C10.  What reading the header sends to the translation unit depends on
    one bit only, whether [_WINDOWS] is defined.  Two readings that agree on
    that bit send the same macro definitions, the same includes and the same
    pragmas, whatever else differs between them: the other macros, the log
    so far, the files already marked [#pragma once], the toolchain.  (This
    is about reading the header's lines; that a repeated [#include] does not
    read them again is C6.) *)
Theorem header_effect_function_of_WINDOWS
    (sys1 sys2 : string -> macro_table -> macro_table) (st1 st2 : pp_state) :
  defined (macros st1) "_WINDOWS" = defined (macros st2) "_WINDOWS" ->
  exists st1' st2',
    preprocess_SmartCL_h sys1 st1 = Ok st1' /\
    preprocess_SmartCL_h sys2 st2 = Ok st2' /\
    emitted st1 st1' = emitted st2 st2' /\
    emitted st1 st1' = header_events (defined (macros st1) "_WINDOWS") /\
    definitions_of (emitted st1 st1') = definitions_of (emitted st2 st2') /\
    includes_of (emitted st1 st1') = includes_of (emitted st2 st2') /\
    pragmas_of (emitted st1 st1') = pragmas_of (emitted st2 st2').
Proof.
  intros W.
  destruct (preprocess_SmartCL_h_emitted sys1 st1) as (st1' & R1 & _ & _ & E1).
  destruct (preprocess_SmartCL_h_emitted sys2 st2) as (st2' & R2 & _ & _ & E2).
  exists st1', st2'. rewrite E1, E2, W. repeat split; assumption.
Qed.

Lemma header_effect_function_of_WINDOWS_witness :
  defined (macros windows_build) "_WINDOWS" = defined (macros busy_windows_build) "_WINDOWS" /\
  exists st1' st2',
    preprocess_SmartCL_h sample_toolchain windows_build = Ok st1' /\
    preprocess_SmartCL_h (fun _ m => m) busy_windows_build = Ok st2' /\
    emitted windows_build st1' = emitted busy_windows_build st2'.
Proof.
  split; [vm_compute; reflexivity|].
  destruct (header_effect_function_of_WINDOWS sample_toolchain (fun _ m => m)
              windows_build busy_windows_build)
    as (st1' & st2' & R1 & R2 & E & _); [vm_compute; reflexivity|].
  exists st1', st2'. repeat split; assumption.
Defined.

End Spec.

(** ** Further properties of the header *)

Module Extra.
Import Source Lexer Directive Preprocessor SmartCL Effect Samples Dependents Facts.

(** X1.  With any toolchain, one that may lack a header and whose headers
    may do anything to the state, running the preprocessor on the header's
    text gives the same result, a state or an error, as the header written
    as a program: mark the file, then, if [_WINDOWS] is defined, define
    [WIN32_LEAN_AND_MEAN], read [<windows.h>] and [<stdio.h>], define
    [kernel], [global] and [local], pass the warning pragma.  When
    [_WINDOWS] is not defined the toolchain is not asked for anything and
    the run succeeds with the mark as its only effect; when it is defined
    and a system header cannot be read, the run stops there with the
    toolchain's error. *)
Theorem header_text_runs_as_program
    (tc : string -> pp_state -> result pp_state) (st : pp_state) :
  read_SmartCL_h tc st = Program.SmartCL_h_program tc st /\
  (defined (macros st) "_WINDOWS" = false ->
   read_SmartCL_h tc st = Ok (PPState (macros st) ({[SmartCL_h_name]} ∪ once st) (log st))) /\
  (forall e, defined (macros st) "_WINDOWS" = true ->
     tc "windows.h" (before_windows_h st) = Err e ->
     read_SmartCL_h tc st = Err e) /\
  (forall s1 e, defined (macros st) "_WINDOWS" = true ->
     tc "windows.h" (before_windows_h st) = Ok s1 ->
     tc "stdio.h" (before_stdio_h s1) = Err e ->
     read_SmartCL_h tc st = Err e) /\
  (forall s1 s2, defined (macros st) "_WINDOWS" = true ->
     tc "windows.h" (before_windows_h st) = Ok s1 ->
     tc "stdio.h" (before_stdio_h s1) = Ok s2 ->
     read_SmartCL_h tc st = Ok (after_includes s2)).
Proof.
  split; [apply text_denotes_program|]. rewrite read_SmartCL_h_eq.
  split; [by intros ->|]. split; [|split].
  - intros e -> R1. by rewrite R1.
  - intros s1 e -> R1 R2. rewrite R1. cbn [bind]. by rewrite R2.
  - intros s1 s2 -> R1 R2. rewrite R1. cbn [bind]. by rewrite R2.
Qed.

(** X2.  The header touches four macro names and no other: a name that is
    not [WIN32_LEAN_AND_MEAN], [kernel], [global] or [local], and that the
    system headers leave alone, means after the header what it meant
    before, in every build. *)
Theorem header_touches_four_names
    (sys : string -> macro_table -> macro_table) (st : pp_state) (x : string) :
  x <> "WIN32_LEAN_AND_MEAN" -> x <> "kernel" -> x <> "global" -> x <> "local" ->
  (forall h m, sys h m !! x = m !! x) ->
  exists st',
    preprocess_SmartCL_h sys st = Ok st' /\
    macros st' !! x = macros st !! x.
Proof.
  intros N1 N2 N3 N4 Keep. rewrite preprocess_SmartCL_h_eq. eexists.
  split; [reflexivity|]. cbn [macros].
  destruct (defined (macros st) "_WINDOWS"); cbn [header_macros]; [|reflexivity].
  rewrite !lookup_insert_ne by congruence. rewrite !Keep.
  by rewrite lookup_insert_ne by congruence.
Qed.

Lemma header_touches_four_names_witness :
  exists st',
    preprocess_SmartCL_h sample_toolchain busy_windows_build = Ok st' /\
    macros st' !! "_WINDOWS" = Some [TNumber "1"].
Proof.
  destruct (header_touches_four_names sample_toolchain busy_windows_build "_WINDOWS")
    as (st' & R & E); try discriminate.
  - intros h m. unfold sample_toolchain. apply lookup_insert_ne. discriminate.
  - exists st'. split; [exact R|]. rewrite E. vm_compute. reflexivity.
Defined.

(** *** The order of [_WINDOWS] and the first inclusion *)

Lemma project_header_unmarked (sys : string -> macro_table -> macro_table) (st : pp_state) :
  SmartCL_h_name ∉ once st ->
  project_header sys SmartCL_h_name st =
  Ok (PPState (header_macros sys (defined (macros st) "_WINDOWS") (macros st))
              ({[SmartCL_h_name]} ∪ once st)
              (log st ++ header_events (defined (macros st) "_WINDOWS"))).
Proof.
  intros Out. unfold project_header, include_SmartCL_h.
  rewrite String.eqb_refl, decide_False by exact Out.
  apply preprocess_SmartCL_h_eq.
Qed.

Lemma project_header_marked (sys : string -> macro_table -> macro_table) (st : pp_state) :
  SmartCL_h_name ∈ once st -> project_header sys SmartCL_h_name st = Ok st.
Proof.
  intros In. unfold project_header. rewrite String.eqb_refl.
  by apply include_SmartCL_h_marked.
Qed.

Lemma late_windows_unit_directives :
  map (fun l => ln_directive (parse_line l)) late_windows_unit =
  [ DInclude (UserHeader SmartCL_h_name); DDefine "_WINDOWS" [];
    DInclude (UserHeader SmartCL_h_name) ].
Proof. vm_compute. reflexivity. Qed.

Lemma zero_windows_unit_directives :
  map (fun l => ln_directive (parse_line l)) zero_windows_unit =
  [ DDefine "_WINDOWS" [TNumber "0"]; DInclude (UserHeader SmartCL_h_name) ].
Proof. vm_compute. reflexivity. Qed.

(** X3.  The first inclusion decides.  A unit that includes the header
    while [_WINDOWS] is not defined, defines [_WINDOWS] afterwards and
    includes the header again gets nothing from the header: the file was
    marked at the first inclusion, so the second does not read it.  All that
    reaches the unit is its own definition of [_WINDOWS]; [kernel], [global]
    and [local] mean what they meant before. *)
Theorem first_inclusion_decides
    (sys : string -> macro_table -> macro_table) (unit_name : string) (st : pp_state) :
  defined (macros st) "_WINDOWS" = false ->
  SmartCL_h_name ∉ once st ->
  exists st',
    preprocess_unit sys unit_name late_windows_unit st = Ok st' /\
    defined (macros st') "_WINDOWS" = true /\
    emitted st st' = [EvDefine "_WINDOWS" []] /\
    macros st' = <["_WINDOWS" := []]> (macros st) /\
    macros st' !! "kernel" = macros st !! "kernel" /\
    macros st' !! "global" = macros st !! "global" /\
    macros st' !! "local" = macros st !! "local".
Proof.
  intros W Out. unfold preprocess_unit. rewrite late_windows_unit_directives.
  unfold run_file. cbn [run_lines step exec live forallb bind fst snd].
  rewrite project_header_unmarked by exact Out. rewrite W.
  cbn [header_macros header_events run_lines step exec live forallb bind fst snd].
  rewrite project_header_marked by (cbn [emit once]; set_solver).
  cbn [bind fst snd]. eexists. split; [reflexivity|]. cbn [macros log emit].
  split; [unfold defined; by rewrite lookup_insert_eq|].
  split; [apply emitted_app; cbn [log]; by rewrite app_nil_r|].
  split; [reflexivity|].
  by rewrite !lookup_insert_ne by discriminate.
Qed.

Lemma first_inclusion_decides_witness :
  defined (macros plain_build) "_WINDOWS" = false /\
(SmartCL_h_name ∉ once plain_build) /\
  exists st',
    preprocess_unit sample_toolchain "late.cpp" late_windows_unit plain_build = Ok st' /\
    defined (macros st') "_WINDOWS" = true /\
    macros st' !! "kernel" = None.
Proof.
  assert (W : defined (macros plain_build) "_WINDOWS" = false) by (vm_compute; reflexivity).
  assert (Out : SmartCL_h_name ∉ once plain_build) by (cbn [once plain_build]; set_solver).
  split; [exact W|]. split; [exact Out|].
  destruct (first_inclusion_decides sample_toolchain "late.cpp" plain_build W Out)
    as (st' & R & D & _ & _ & K & _).
  exists st'. split; [exact R|]. split; [exact D|]. rewrite K. vm_compute. reflexivity.
Defined.

(** X4.  The guard asks whether [_WINDOWS] is defined, not what it is
    defined as: a unit that defines [_WINDOWS] as [0] and then includes the
    header for the first time gets the whole Windows branch, [kernel]
    included. *)
Theorem WINDOWS_zero_still_selects
    (sys : string -> macro_table -> macro_table) (unit_name : string) (st : pp_state) :
  SmartCL_h_name ∉ once st ->
  exists st',
    preprocess_unit sys unit_name zero_windows_unit st = Ok st' /\
    emitted st st' = EvDefine "_WINDOWS" [TNumber "0"] :: header_events true /\
    macros st' !! "kernel" = Some kernel_body /\
    macros st' !! "global" = Some [] /\
    macros st' !! "local" = Some [].
Proof.
  intros Out. unfold preprocess_unit. rewrite zero_windows_unit_directives.
  unfold run_file. cbn [run_lines step exec live forallb bind fst snd].
  rewrite project_header_unmarked by (cbn [emit once]; exact Out).
  assert (W : defined (macros (emit (EvDefine "_WINDOWS" [TNumber "0"])
                 (PPState (<["_WINDOWS" := [TNumber "0"]]> (macros st)) (once st) (log st))))
                "_WINDOWS" = true).
  { cbn [emit macros]. unfold defined. by rewrite lookup_insert_eq. }
  rewrite W. cbn [bind fst snd]. eexists. split; [reflexivity|].
  cbn [macros log emit header_macros].
  split; [apply emitted_app; cbn [log]; by rewrite <- app_assoc|].
  split; [|split].
  - rewrite !lookup_insert_ne by discriminate. apply lookup_insert_eq.
  - rewrite lookup_insert_ne by discriminate. apply lookup_insert_eq.
  - apply lookup_insert_eq.
Qed.

Lemma WINDOWS_zero_still_selects_witness :
(SmartCL_h_name ∉ once plain_build) /\
  exists st',
    preprocess_unit sample_toolchain "zero.cpp" zero_windows_unit plain_build = Ok st' /\
    macros st' !! "kernel" = Some kernel_body.
Proof.
  assert (Out : SmartCL_h_name ∉ once plain_build) by (cbn [once plain_build]; set_solver).
  split; [exact Out|].
  destruct (WINDOWS_zero_still_selects sample_toolchain "zero.cpp" plain_build Out)
    as (st' & R & _ & K & _).
  exists st'. split; [exact R | exact K].
Defined.

(** *** What the macros make of program text *)

Lemma global_local_kernel_after (sys : string -> macro_table -> macro_table)
    (st st' : pp_state) :
  defined (macros st) "_WINDOWS" = true ->
  preprocess_SmartCL_h sys st = Ok st' ->
  macros st' !! "kernel" = Some kernel_body /\
  macros st' !! "global" = Some [] /\
  macros st' !! "local" = Some [].
Proof.
  intros W. rewrite preprocess_SmartCL_h_eq, W. intros [= <-].
  cbn [macros header_macros]. split; [|split].
  - rewrite !lookup_insert_ne by discriminate. apply lookup_insert_eq.
  - rewrite lookup_insert_ne by discriminate. apply lookup_insert_eq.
  - apply lookup_insert_eq.
Qed.

Lemma expand_other_token (m : macro_table) (t : pp_token) :
  (forall x, t <> TIdent x) -> expand m [t] = [t].
Proof.
  intros N. unfold expand. cbn [expand_fuel flat_map].
  destruct t as [x| | | |]; try reflexivity. by destruct (N x).
Qed.

(** X5.  On Windows the header turns a kernel source into plain C++, token
    by token: every [kernel] becomes [extern "C" __declspec(dllexport)],
    every [global] and [local] disappears, every other token stays where it
    is.  This holds for any program text none of whose other identifiers is
    a macro (nor any of [extern], [__declspec], [dllexport]). *)
Theorem kernel_source_on_windows
    (sys : string -> macro_table -> macro_table) (st st' : pp_state)
    (ts : list pp_token) :
  defined (macros st) "_WINDOWS" = true ->
  preprocess_SmartCL_h sys st = Ok st' ->
  (forall x, TIdent x ∈ ts ++ kernel_body ->
             x <> "kernel" -> x <> "global" -> x <> "local" ->
             macros st' !! x = None) ->
  expand (macros st') ts = flat_map qualify ts.
Proof.
  intros W R Plain.
  destruct (global_local_kernel_after sys st st' W R) as (K & G & L).
  assert (E1 : macros st' !! "extern" = None).
  { apply Plain; try discriminate. apply elem_of_app. right. apply list_elem_of_here. }
  assert (E2 : macros st' !! "__declspec" = None).
  { apply Plain; try discriminate. apply elem_of_app. right.
    do 2 apply list_elem_of_further. apply list_elem_of_here. }
  assert (E3 : macros st' !! "dllexport" = None).
  { apply Plain; try discriminate. apply elem_of_app. right.
    do 4 apply list_elem_of_further. apply list_elem_of_here. }
  assert (Body : forall x, TIdent x ∈ ts ->
                   x <> "kernel" -> x <> "global" -> x <> "local" ->
                   macros st' !! x = None).
  { intros x In. apply Plain, elem_of_app. by left. }
  clear Plain. induction ts as [|t ts IH]; [reflexivity|].
  rewrite expand_cons. cbn [flat_map]. rewrite IH.
  2:{ intros x In. apply Body. by apply list_elem_of_further. }
  f_equal. destruct t as [x| | | |]; try (by apply expand_other_token).
  cbn [qualify].
  destruct (String.eqb_spec x "kernel") as [->|NK]; [by apply expand_kernel|].
  destruct (String.eqb_spec x "global") as [->|NG]; [by apply expand_empty_macro|].
  destruct (String.eqb_spec x "local") as [->|NL]; [by apply expand_empty_macro|].
  apply expand_not_macro, Body; [apply list_elem_of_here | done..].
Qed.

Lemma kernel_source_on_windows_witness :
  defined (macros windows_build) "_WINDOWS" = true /\
  preprocess_SmartCL_h sample_toolchain windows_build = Ok first_included /\
  expand (macros first_included) kernel_line_tokens =
  [ TIdent "extern"; TString "C"; TIdent "__declspec"; TPunct "(";
    TIdent "dllexport"; TPunct ")"; TIdent "void"; TIdent "scale"; TPunct "(";
    TIdent "float"; TPunct "*"; TIdent "v"; TPunct ",";
    TIdent "float"; TPunct "*"; TIdent "t"; TPunct ")";
    TPunct "{"; TPunct "}" ].
Proof.
  assert (W : defined (macros windows_build) "_WINDOWS" = true) by (vm_compute; reflexivity).
  assert (R : preprocess_SmartCL_h sample_toolchain windows_build = Ok first_included)
    by (vm_compute; reflexivity).
  split; [exact W|]. split; [exact R|].
  rewrite (kernel_source_on_windows sample_toolchain windows_build first_included
             kernel_line_tokens W R); [vm_compute; reflexivity|].
  intros x In N1 N2 N3. apply list_elem_of_In in In. vm_compute in In.
  repeat (destruct In as [In|In];
          [first [discriminate In
                 | injection In as <-;
                   first [exfalso; apply N1; reflexivity
                         | exfalso; apply N2; reflexivity
                         | exfalso; apply N3; reflexivity
                         | vm_compute; reflexivity]]|]).
  destruct In.
Defined.

(** X6.  Off Windows the header leaves program text as it is written: in a
    build without [_WINDOWS], text none of whose identifiers is a macro of
    the build reaches the compiler token for token, [kernel], [global] and
    [local] among them. *)
Theorem kernel_source_elsewhere
    (sys : string -> macro_table -> macro_table) (st st' : pp_state)
    (ts : list pp_token) :
  defined (macros st) "_WINDOWS" = false ->
  preprocess_SmartCL_h sys st = Ok st' ->
  (forall x, TIdent x ∈ ts -> macros st !! x = None) ->
  expand (macros st') ts = ts.
Proof.
  intros W. rewrite preprocess_SmartCL_h_eq, W. intros [= <-].
  cbn [macros header_macros]. intros Plain.
  induction ts as [|t ts IH]; [reflexivity|].
  rewrite expand_cons, IH.
  2:{ intros x In. apply Plain. by apply list_elem_of_further. }
  destruct t as [x| | | |]; try (by rewrite expand_other_token).
  rewrite expand_not_macro; [reflexivity|]. apply Plain, list_elem_of_here.
Qed.

Lemma kernel_source_elsewhere_witness :
  defined (macros plain_build) "_WINDOWS" = false /\
  preprocess_SmartCL_h sample_toolchain plain_build = Ok plain_included /\
  expand (macros plain_included) kernel_line_tokens = kernel_line_tokens /\
  TIdent "kernel" ∈ kernel_line_tokens.
Proof.
  assert (W : defined (macros plain_build) "_WINDOWS" = false) by (vm_compute; reflexivity).
  assert (R : preprocess_SmartCL_h sample_toolchain plain_build = Ok plain_included)
    by (vm_compute; reflexivity).
  split; [exact W|]. split; [exact R|]. split.
  - apply (kernel_source_elsewhere sample_toolchain plain_build plain_included
             kernel_line_tokens W R).
    intros x _. apply lookup_empty.
  - vm_compute. apply list_elem_of_here.
Defined.

(** *** How often the header brings in [<windows.h>] *)

Lemma count_includes_app (h : string) (l1 l2 : list event) :
  count_includes h (l1 ++ l2) = count_includes h l1 + count_includes h l2.
Proof. induction l1 as [|e l1 IH]; cbn [count_includes app]; [reflexivity | lia]. Qed.

Lemma pending_read_mono (st st' : pp_state) :
  once st ⊆ once st' -> pending_read st' <= pending_read st.
Proof.
  intros Sub. unfold pending_read.
  destruct (decide (SmartCL_h_name ∈ once st')), (decide (SmartCL_h_name ∈ once st));
    try lia. set_solver.
Qed.

(** The potential that no line of a unit can raise: the inclusions of
    [<windows.h>] seen so far, plus one while the header is still unread. *)
Section AtMostOnce.

Variable sys : string -> macro_table -> macro_table.
Variable user : string -> pp_state -> result pp_state.
Hypothesis user_bounded :
  forall h st st', user h st = Ok st' ->
    count_includes "windows.h" (log st') + pending_read st' <=
    count_includes "windows.h" (log st) + pending_read st.

Lemma emit_bounded (e : event) (m : macro_table) (st : pp_state) :
  is_include "windows.h" e = false ->
  count_includes "windows.h" (log (emit e (PPState m (once st) (log st)))) +
    pending_read (emit e (PPState m (once st) (log st))) =
  count_includes "windows.h" (log st) + pending_read st.
Proof.
  intros N. cbn [emit log macros once]. rewrite count_includes_app.
  cbn [count_includes]. rewrite N. unfold pending_read, emit. cbn [once].
  destruct (decide (SmartCL_h_name ∈ once st)); lia.
Qed.

Lemma exec_bounded (file : string) (d : directive) (st st' : pp_state) :
  asks_for "windows.h" d = false ->
  exec (supplied sys) user file d st = Ok st' ->
  count_includes "windows.h" (log st') + pending_read st' <=
  count_includes "windows.h" (log st) + pending_read st.
Proof.
  intros N.
  destruct d as [ |ts|ts|x|x| | |x b|x|[h|h]|x| ]; cbn [exec];
    try (intros [= <-]; lia); try discriminate.
  - intros [= <-]. destruct st as [m o l]. by rewrite (emit_bounded _ m (PPState m o l)).
  - destruct (is_pragma_once ts); intros [= <-].
    + cbn [log]. apply Nat.add_le_mono_l, pending_read_mono. cbn [once]. set_solver.
    + destruct st as [m o l]. by rewrite (emit_bounded _ m (PPState m o l)).
  - intros [= <-]. by rewrite (emit_bounded _ _ st).
  - intros [= <-]. by rewrite (emit_bounded _ _ st).
  - intros [= <-]. cbn [asks_for] in N. cbn [emit macros once log].
    rewrite count_includes_app. cbn [count_includes is_include]. rewrite N.
    unfold pending_read. cbn [once].
    destruct (decide (SmartCL_h_name ∈ once st)); lia.
  - apply user_bounded.
Qed.

Lemma step_bounded (file : string) (d : directive) (cs cs' : list frame)
    (st st' : pp_state) :
  asks_for "windows.h" d = false ->
  step (supplied sys) user file d cs st = Ok (cs', st') ->
  count_includes "windows.h" (log st') + pending_read st' <=
  count_includes "windows.h" (log st) + pending_read st.
Proof.
  intros N.
  assert (Live :
            (if live cs then do s <- exec (supplied sys) user file d st; Ok (cs, s)
             else Ok (cs, st)) = Ok (cs', st') ->
            count_includes "windows.h" (log st') + pending_read st' <=
            count_includes "windows.h" (log st) + pending_read st).
  { destruct (live cs); [|intros [= _ <-]; lia].
    destruct (exec (supplied sys) user file d st) as [s|e] eqn:X; cbn [bind]; [|discriminate].
    intros [= _ <-]. by eapply exec_bounded. }
  destruct d as [ |ts|ts|x|x| | |x b|x|h|x| ]; cbn [step];
    try exact Live; try (intros [= _ <-]; lia); try discriminate.
  - destruct cs as [|[b [|]] cs0]; try discriminate. intros [= _ <-]. lia.
  - destruct cs as [|f cs0]; try discriminate. intros [= _ <-]. lia.
Qed.

Lemma run_lines_bounded (file : string) (ds : list directive) :
  Forall (fun d => asks_for "windows.h" d = false) ds ->
  forall (cs cs' : list frame) (st st' : pp_state),
    run_lines (supplied sys) user file ds cs st = Ok (cs', st') ->
    count_includes "windows.h" (log st') + pending_read st' <=
    count_includes "windows.h" (log st) + pending_read st.
Proof.
  induction 1 as [|d ds N _ IH]; intros cs cs' st st'; cbn [run_lines].
  - intros [= _ <-]. lia.
  - destruct (step (supplied sys) user file d cs st) as [[cs1 st1]|e] eqn:S1; cbn [bind fst snd];
      [|discriminate].
    intros R. apply step_bounded in S1; [|exact N]. apply IH in R. lia.
Qed.

End AtMostOnce.

Lemma project_header_bounded (sys : string -> macro_table -> macro_table)
    (h : string) (st st' : pp_state) :
  project_header sys h st = Ok st' ->
  count_includes "windows.h" (log st') + pending_read st' <=
  count_includes "windows.h" (log st) + pending_read st.
Proof.
  unfold project_header. destruct (String.eqb h SmartCL_h_name); [|discriminate].
  unfold include_SmartCL_h. destruct (decide (SmartCL_h_name ∈ once st)) as [In|Out].
  - intros [= <-]. lia.
  - rewrite preprocess_SmartCL_h_eq. intros [= <-]. cbn [log].
    rewrite count_includes_app. unfold pending_read at 1. cbn [once].
    rewrite decide_True by set_solver.
    unfold pending_read. rewrite decide_False by exact Out.
    destruct (defined (macros st) "_WINDOWS"); cbn; lia.
Qed.

(** X7.  The header brings in [<windows.h>] at most once per unit.  Take a
    unit as the sequence of its directives, in the fragment the model
    executes (text, object-like [#define], [#undef], [#ifdef], [#ifndef],
    [#else], [#endif], [#pragma], [#include] of a system header or of
    "SmartCL.h"), and let its run succeed.  If none of the unit's own
    directives is [#include <windows.h>], then however often and in
    whichever conditional groups the unit includes the header, the log
    gains at most one inclusion of [<windows.h>], and none at all when the
    header was already marked before the unit began. *)
Theorem windows_h_at_most_once
    (sys : string -> macro_table -> macro_table) (unit_name : string)
    (ds : list directive) (st st' : pp_state) :
  Forall (fun d => asks_for "windows.h" d = false) ds ->
  run_file (supplied sys) (project_header sys) unit_name ds st = Ok st' ->
  count_includes "windows.h" (log st') <=
    count_includes "windows.h" (log st) + pending_read st /\
  (SmartCL_h_name ∈ once st ->
   count_includes "windows.h" (log st') <= count_includes "windows.h" (log st)).
Proof.
  intros Own R.
  assert (B : count_includes "windows.h" (log st') + pending_read st' <=
              count_includes "windows.h" (log st) + pending_read st).
  { unfold run_file in R.
    destruct (run_lines (supplied sys) (project_header sys) unit_name ds [] st)
      as [[cs1 st1]|e] eqn:RL; cbn [bind fst snd] in R; [|discriminate].
    destruct cs1; [|discriminate]. injection R as <-.
    eapply run_lines_bounded; [apply project_header_bounded|exact Own|exact RL]. }
  split; [lia|]. intros In. unfold pending_read in B at 2.
  rewrite decide_True in B by exact In. lia.
Qed.

Lemma windows_h_at_most_once_witness :
  Forall (fun d => asks_for "windows.h" d = false) eager_directives /\
  run_file (supplied sample_toolchain) (project_header sample_toolchain) "eager.cpp"
           eager_directives windows_build = Ok after_eager_unit /\
  count_includes "windows.h" (log after_eager_unit) = 1 /\
  count_includes "windows.h" (log after_eager_unit) <=
    count_includes "windows.h" (log windows_build) + pending_read windows_build.
Proof.
  assert (Own : Forall (fun d => asks_for "windows.h" d = false) eager_directives).
  { vm_compute. repeat (constructor; [reflexivity|]). constructor. }
  assert (R : run_file (supplied sample_toolchain) (project_header sample_toolchain)
                "eager.cpp" eager_directives windows_build = Ok after_eager_unit)
    by (vm_compute; reflexivity).
  split; [exact Own|]. split; [exact R|]. split; [vm_compute; reflexivity|].
  apply (windows_h_at_most_once sample_toolchain "eager.cpp" eager_directives
           windows_build after_eager_unit Own R).
Defined.

End Extra.
